(** * The integration-test framework's Docker wrapper

    A shallow embedding of
    [tools/integration-tests/tester/framework/docker.go]: the container
    handle [DockerContainer], the builders of the entry node's, the peer's
    and the Pumba container's configuration, and the calls each method sends
    to the Docker engine.

    Go strings are byte strings ([string]), a slice that may be [nil] is an
    [option (list _)], a pointer that may be [nil] is an [option], a map is
    a [gmap], and [time.Duration] is its count of nanoseconds in [Z]. A
    method with a pointer receiver takes the handle and returns it next to
    its results. The engine is outside the program: a method is a tree of
    requests whose continuations receive the engine's answers. *)

From Stdlib Require Import ZArith String Ascii DecimalString.
From stdpp Require Import gmap strings list fin_maps.

Local Open Scope Z_scope.

(** ** Formatting *)

(** [fmt.Sprintf("%d", n)] for an integer: decimal digits, with a minus
    sign for a negative number. *)
Definition sprintf_d (n : Z) : string := NilZero.string_of_int (Z.to_int n).

(** [strings.Join(elems, sep)]. *)
Fixpoint Join (elems : list string) (sep : string) : string :=
  match elems with
  | [] => ""
  | [e] => e
  | e :: rest => e +:+ sep +:+ Join rest sep
  end.

(** ** Command lines

    An argument is a flag named [key] when it starts with ["--key="]; what
    follows is the flag's value. *)
Definition flagPrefix (key : string) : string := "--" +:+ key +:+ "=".

Definition isFlag (key arg : string) : bool := String.prefix (flagPrefix key) arg.

Fixpoint stripPrefix (p s : string) : option string :=
  match p, s with
  | EmptyString, _ => Some s
  | String a p', String b s' => if Ascii.eqb a b then stripPrefix p' s' else None
  | String _ _, EmptyString => None
  end.

Definition flagValue (key arg : string) : option string := stripPrefix (flagPrefix key) arg.

(** The arguments of a command line that are the flag [key], in order. *)
Definition flagsNamed (key : string) (cmd : list string) : list string :=
  List.filter (isFlag key) cmd.

(** The values the flag [key] is given on a command line, in order. *)
Definition flagValues (key : string) (cmd : list string) : list string :=
  omap (flagValue key) cmd.

(** A coordinator flag of any kind: a flag of the [coordinator.] group. *)
Definition isCoordinatorFlag (arg : string) : bool := String.prefix "--coordinator." arg.

(** ** The Docker API's types, as far as the framework reads or fills them *)

(** [time.Duration]: nanoseconds, a 64-bit integer. *)
Definition Duration : Type := Z.
Definition Nanosecond : Duration := 1.
Definition Microsecond : Duration := 1000 * Nanosecond.
Definition Millisecond : Duration := 1000 * Microsecond.
Definition Second : Duration := 1000 * Millisecond.
Definition Minute : Duration := 60 * Second.

(** [error]: a value handed back by the Docker client, or one this package
    makes with [fmt.Errorf]. *)
Inductive error : Type :=
| ClientError (msg : string)
| Errorf (msg : string).

(** [client.Client], by the arguments of [client.NewClient]. *)
Record Client : Type := {
  host : string;
  version : string
}.

(** [container.Config]. [ExposedPorts] is a [nat.PortSet], a set of ports. *)
Record Config : Type := {
  Image : string;
  ExposedPorts : gset string;
  Env : list string;
  Cmd : list string
}.

(** [container.HostConfig]. *)
Record HostConfig : Type := {
  Binds : list string
}.

(** [types.Container], an entry of the engine's container list. *)
Record Container : Type := {
  ID : string;
  Names : list string
}.

Record ContainerCreateCreatedBody : Type := {
  CreatedID : string
}.

(** [types.ContainerListOptions{}] and [types.ContainerStartOptions{}]: the
    framework only ever passes their zero values. *)
Inductive ContainerListOptions : Type := ContainerListOptionsZero.
Inductive ContainerStartOptions : Type := ContainerStartOptionsZero.

Record ContainerRemoveOptions : Type := {
  RemoveVolumes : bool;
  RemoveLinks : bool;
  Force : bool
}.

Record ContainerLogsOptions : Type := {
  ShowStdout : bool;
  ShowStderr : bool;
  Since : string;
  Timestamps : bool;
  Follow : bool;
  Tail : string;
  Details : bool
}.

Record ContainerState : Type := {
  ExitCode : Z
}.

Record EndpointSettings : Type := {
  IPAddress : string
}.

(** [NetworkSettings.Networks] is a [map[string]*network.EndpointSettings]. *)
Record NetworkSettings : Type := {
  Networks : gmap string (option EndpointSettings)
}.

(** [types.ContainerJSON]: [State] and [NetworkSettings] are pointers. *)
Record ContainerJSON : Type := {
  State : option ContainerState;
  NetworkSettingsOf : option NetworkSettings
}.

(** The [io.ReadCloser] of a log request: the engine's stream, which the
    framework hands on unread. *)
Inductive ReadCloser : Type := EngineStream (handle : nat).

(** ** Requests to the engine

    One constructor per method of [client.Client] the framework calls, with
    the arguments it is called with. Left out are the [context.Background()]
    of every call and the two arguments that are [nil] in every call: the
    networking configuration of [ContainerCreate] and the endpoint
    configuration of [NetworkConnect]. The timeout of [ContainerStop] is the
    duration its pointer argument points to. *)
Inductive request : Type :=
| ContainerList (options : ContainerListOptions)
| ContainerCreate (config : Config) (hostConfig : option HostConfig) (containerName : string)
| NetworkConnect (networkID containerID : string)
| NetworkDisconnect (networkID containerID : string) (force : bool)
| ContainerStart (containerID : string) (options : ContainerStartOptions)
| ContainerRemove (containerID : string) (options : ContainerRemoveOptions)
| ContainerStop (containerID : string) (timeout : Duration)
| ContainerInspect (containerID : string)
| ContainerLogs (containerID : string) (options : ContainerLogsOptions).

(** What the client method returns; a Go [(value, error)] pair is a pair
    whose second component is [None] for a [nil] error. *)
Definition response (r : request) : Type :=
  match r with
  | ContainerList _ => (list Container * option error)%type
  | ContainerCreate _ _ _ => (ContainerCreateCreatedBody * option error)%type
  | NetworkConnect _ _ => option error
  | NetworkDisconnect _ _ _ => option error
  | ContainerStart _ _ => option error
  | ContainerRemove _ _ => option error
  | ContainerStop _ _ => option error
  | ContainerInspect _ => (ContainerJSON * option error)%type
  | ContainerLogs _ _ => (option ReadCloser * option error)%type
  end.

(** A run of framework code: it returns, or panics, or calls the engine
    through a client and goes on with the answer. *)
Inductive Prog (A : Type) : Type :=
| Ret (a : A)
| Panic (msg : string)
| Call (c : Client) (r : request) (k : response r -> Prog A).
Arguments Ret {A} a.
Arguments Panic {A} msg.
Arguments Call {A} c r k.

Fixpoint bind {A B : Type} (p : Prog A) (f : A -> Prog B) : Prog B :=
  match p with
  | Ret a => f a
  | Panic msg => Panic msg
  | Call c r k => Call c r (fun x => bind (k x) f)
  end.

(** The container a request is about, for the requests that name one. *)
Definition targetOf (r : request) : option string :=
  match r with
  | ContainerList _ => None
  | ContainerCreate _ _ _ => None
  | NetworkConnect _ containerID => Some containerID
  | NetworkDisconnect _ containerID _ => Some containerID
  | ContainerStart containerID _ => Some containerID
  | ContainerRemove containerID _ => Some containerID
  | ContainerStop containerID _ => Some containerID
  | ContainerInspect containerID => Some containerID
  | ContainerLogs containerID _ => Some containerID
  end.

(** How a run ends. *)
Inductive outcome (A : Type) : Type :=
| Returned (a : A)
| Panicked (msg : string).
Arguments Returned {A} a.
Arguments Panicked {A} msg.

(** Running against an engine: the engine answers each request from its
    state and moves on; the requests sent are logged in order. *)
Section Run.
Context {World : Type}.
Variable engine : World -> Client -> forall r : request, response r * World.

Fixpoint run {A : Type} (p : Prog A) (w : World) : outcome A * World * list (Client * request) :=
  match p with
  | Ret a => (Returned a, w, [])
  | Panic msg => (Panicked msg, w, [])
  | Call c r k =>
      let '(x, w1) := engine w c r in
      let '(o, w2, log) := run (k x) w1 in
      (o, w2, (c, r) :: log)
  end.
End Run.

(** ** The container handle *)

(** A Go slice: [None] is the [nil] slice, [Some l] a slice of the elements
    [l] ([Some []] is empty and not [nil]). *)
Definition slice (A : Type) : Type := option (list A).

Definition len {A : Type} (s : slice A) : nat :=
  match s with
  | None => 0%nat
  | Some l => length l
  end.

(** [s[i]]: [None] when the index is out of range, where Go panics. *)
Definition index {A : Type} (s : slice A) (i : nat) : option A :=
  match s with
  | None => None
  | Some l => l !! i
  end.

Definition indexOutOfRange (i n : nat) : string :=
  "runtime error: index out of range [" +:+ sprintf_d (Z.of_nat i)
    +:+ "] with length " +:+ sprintf_d (Z.of_nat n).

Definition nilDereference : string :=
  "runtime error: invalid memory address or nil pointer dereference".

(** [DockerContainer] is a wrapper object for a Docker container. *)
Record DockerContainer : Type := {
  client : Client;
  id : string
}.

(** [newDockerClient]: the client on the Docker socket. *)
Definition newDockerClient : Client :=
  {| host := "unix:///var/run/docker.sock"; version := "" |}.

(** [NewDockerContainer]: the identifier starts as the empty string. *)
Definition NewDockerContainer (c : Client) : DockerContainer :=
  {| client := c; id := "" |}.

(** The loop of [NewDockerContainerFromExisting] over the container list. *)
Fixpoint findByName (c : Client) (name : string) (containers : list Container)
  : Prog (option DockerContainer * option error) :=
  match containers with
  | [] => Ret (None, Some (Errorf ("could not find container with name '" +:+ name +:+ "'")))
  | cont :: rest =>
      match Names cont !! 0%nat with
      | None => Panic (indexOutOfRange 0 (length (Names cont)))
      | Some first =>
          if String.eqb first name
          then Ret (Some {| client := c; id := ID cont |}, None)
          else findByName c name rest
      end
  end.

Definition NewDockerContainerFromExisting (c : Client) (name : string)
  : Prog (option DockerContainer * option error) :=
  Call c (ContainerList ContainerListOptionsZero) (fun '(containers, err) =>
    match err with
    | Some e => Ret (None, Some e)
    | None => findByName c name containers
    end).

(** [CreateContainer]: the identifier is written only after the engine
    answered without an error. *)
Definition CreateContainer (d : DockerContainer) (name : string) (containerConfig : Config)
    (hostConfigs : slice (option HostConfig)) : Prog (DockerContainer * option error) :=
  let hostConfig :=
    if (0 <? len hostConfigs)%nat
    then match index hostConfigs 0 with Some h => h | None => None end
    else None in
  Call (client d) (ContainerCreate containerConfig hostConfig name) (fun '(resp, err) =>
    match err with
    | Some e => Ret (d, Some e)
    | None => Ret ({| client := client d; id := CreatedID resp |}, None)
    end).

Definition ConnectToNetwork (d : DockerContainer) (networkID : string)
  : Prog (DockerContainer * option error) :=
  Call (client d) (NetworkConnect networkID (id d)) (fun err => Ret (d, err)).

Definition DisconnectFromNetwork (d : DockerContainer) (networkID : string)
  : Prog (DockerContainer * option error) :=
  Call (client d) (NetworkDisconnect networkID (id d) true) (fun err => Ret (d, err)).

Definition Start (d : DockerContainer) : Prog (DockerContainer * option error) :=
  Call (client d) (ContainerStart (id d) ContainerStartOptionsZero) (fun err => Ret (d, err)).

Definition Remove (d : DockerContainer) : Prog (DockerContainer * option error) :=
  Call (client d)
    (ContainerRemove (id d) {| RemoveVolumes := false; RemoveLinks := false; Force := true |})
    (fun err => Ret (d, err)).

(** [Stop]: the variadic [optionalTimeout] is a slice, [nil] when the call
    has no argument. *)
Definition Stop (d : DockerContainer) (optionalTimeout : slice Duration)
  : Prog (DockerContainer * option error) :=
  let stop (duration : Duration) :=
    Call (client d) (ContainerStop (id d) duration) (fun err => Ret (d, err)) in
  match optionalTimeout with
  | None => stop (3 * Minute)
  | Some _ =>
      match index optionalTimeout 0 with
      | Some duration => stop duration
      | None => Panic (indexOutOfRange 0 (len optionalTimeout))
      end
  end.

Definition ExitStatus (d : DockerContainer) : Prog (DockerContainer * (Z * option error)) :=
  Call (client d) (ContainerInspect (id d)) (fun '(resp, err) =>
    match err with
    | Some e => Ret (d, (-1, Some e))
    | None =>
        match State resp with
        | Some st => Ret (d, (ExitCode st, None))
        | None => Panic nilDereference
        end
    end).

(** The loop of [IP] over the networks, in the order the map's iteration
    yields them. *)
Fixpoint scanNetworks (network : string) (entries : list (string * option EndpointSettings))
  : Prog (string * option error) :=
  match entries with
  | [] => Ret ("", Some (Errorf ("IP address in " +:+ network +:+ " could not be determined")))
  | (name, v) :: rest =>
      if String.eqb name network
      then match v with
           | Some ep => Ret (IPAddress ep, None)
           | None => Panic nilDereference
           end
      else scanNetworks network rest
  end.

(** [IP], for the order [iteration] in which [range] yields the entries of a
    map: Go leaves that order open. *)
Definition IPIn (iteration : gmap string (option EndpointSettings) -> list (string * option EndpointSettings))
    (d : DockerContainer) (network : string) : Prog (DockerContainer * (string * option error)) :=
  Call (client d) (ContainerInspect (id d)) (fun '(resp, err) =>
    match err with
    | Some e => Ret (d, ("", Some e))
    | None =>
        match NetworkSettingsOf resp with
        | Some settings =>
            bind (scanNetworks network (iteration (Networks settings))) (fun r => Ret (d, r))
        | None => Panic nilDereference
        end
    end).

Definition IP : DockerContainer -> string -> Prog (DockerContainer * (string * option error)) :=
  IPIn map_to_list.

Definition Logs (d : DockerContainer) : Prog (DockerContainer * (option ReadCloser * option error)) :=
  let options := {|
    ShowStdout := true;
    ShowStderr := true;
    Since := "";
    Timestamps := false;
    Follow := false;
    Tail := "";
    Details := false
  |} in
  Call (client d) (ContainerLogs (id d) options) (fun r => Ret (d, r)).

(** The first request a run sends, if it sends one. *)
Definition firstRequest {A : Type} (p : Prog A) : option request :=
  match p with
  | Call _ r _ => Some r
  | _ => None
  end.

(** ** The builders of the containers' configurations *)

(** Modelled from the spec: the declaration of [NodeConfig] is not among the
    sources. The spec's peer carries a snapshot file path, an autopeering
    seed, its entry node's public key and host, and the optional coordinator
    role; the fields are the ones [CreateHornetPeer] reads, a string where it
    formats with [%s] and a boolean where it branches. *)
Record NodeConfig : Type := {
  Name : string;
  EntryNodeHost : string;
  EntryNodePublicKey : string;
  Coordinator : bool;
  DisabledPlugins : string;
  SnapshotFilePath : string;
  AutopeeringSeed : string
}.

Section Builders.

(** The package's constants, declared outside [docker.go]: strings where
    they are formatted with [%s], integers where with [%d]. *)
Variables disabledPluginsEntryNode coordinatorSeed coordinatorAddress : string.
Variables ParaPoWDifficulty coordinatorIntervalSeconds coordinatorSecurityLevel
  coordinatorMerkleTreeDepth APIPort : Z.

(** The [containerConfig] of [CreateHornetEntryNode]. *)
Definition entryNodeContainerConfig (seed : string) : Config := {|
  Image := "hornet:dev";
  ExposedPorts := ∅;
  Env := [];
  Cmd := [
    "--logger.level=debug";
    "--node.disablePlugins=" +:+ disabledPluginsEntryNode;
    "--autopeering.entryNodes=";
    "--autopeering.seed=base58:" +:+ seed
  ]
|}.

Definition CreateHornetEntryNode (d : DockerContainer) (name seed : string)
  : Prog (DockerContainer * option error) :=
  CreateContainer d name (entryNodeContainerConfig seed) None.

(** The [containerConfig] of [CreateHornetPeer]. *)
Definition peerContainerConfig (config : NodeConfig) : Config := {|
  Image := "hornet:dev";
  ExposedPorts := {[ sprintf_d APIPort +:+ "/tcp" ]};
  Env := ["COO_SEED=" +:+ coordinatorSeed];
  Cmd := [
    "--logger.level=debug";
    "--node.disablePlugins=" +:+ DisabledPlugins config;
    "--node.enablePlugins=" +:+
      (let plugins := [] in
       let plugins := if Coordinator config then plugins ++ ["Coordinator"] else plugins in
       Join plugins ",");
    "--coordinator.mwm=" +:+ sprintf_d ParaPoWDifficulty;
    "--coordinator.address=" +:+ coordinatorAddress;
    "--coordinator.intervalSeconds=" +:+ sprintf_d coordinatorIntervalSeconds;
    "--coordinator.securityLevel=" +:+ sprintf_d coordinatorSecurityLevel;
    "--coordinator.merkleTreeDepth=" +:+ sprintf_d coordinatorMerkleTreeDepth;
    "--snapshots.loadType=global";
    "--snapshots.global.path=snapshot.csv";
    "--snapshots.global.index=0";
    "--snapshots.local.path=" +:+ SnapshotFilePath config;
    "--httpAPI.bindAddress=" +:+ sprintf_d APIPort;
    "--autopeering.seed=base58:" +:+ AutopeeringSeed config;
    "--autopeering.entryNodes=" +:+ EntryNodePublicKey config +:+ "@"
      +:+ EntryNodeHost config +:+ ":14626"
  ]
|}.

Definition CreateHornetPeer (d : DockerContainer) (config : NodeConfig)
  : Prog (DockerContainer * option error) :=
  CreateContainer d (Name config) (peerContainerConfig config)
    (Some [Some {| Binds := ["hornet-testing-assets:/assets:rw"] |}]).

End Builders.

(** The [cmd] of [CreatePumba]: the base invocation, a target flag appended
    for each IP by the loop, then the loss profile and the container. *)
Definition pumbaCmd (containerName : string) (targetIPs : list string) : list string :=
  let cmd := ["--log-level=debug"; "netem"; "--duration=100m"] in
  let cmd := fold_left (fun cmd ip => let targetFlag := "--target=" +:+ ip in cmd ++ [targetFlag])
               targetIPs cmd in
  let slice := ["--tc-image=gaiadocker/iproute2"; "loss"; "--percent=100"; containerName] in
  cmd ++ slice.

Definition CreatePumba (d : DockerContainer) (name containerName : string)
    (targetIPs : list string) : Prog (DockerContainer * option error) :=
  let hostConfig := {| Binds := ["/var/run/docker.sock:/var/run/docker.sock:ro"] |} in
  let containerConfig := {|
    Image := "gaiaadm/pumba:0.7.2";
    ExposedPorts := ∅;
    Env := [];
    Cmd := pumbaCmd containerName targetIPs
  |} in
  CreateContainer d name containerConfig (Some [Some hostConfig]).

(** ** Operations on a handle, for runs of several of them *)

Inductive operation : Type :=
| OpStart
| OpStop (optionalTimeout : slice Duration)
| OpRemove
| OpExitStatus
| OpIP (network : string)
| OpLogs
| OpConnectToNetwork (networkID : string)
| OpDisconnectFromNetwork (networkID : string).

(** One operation, keeping the handle it leaves and dropping its result. *)
Definition perform (iteration : gmap string (option EndpointSettings) -> list (string * option EndpointSettings))
    (op : operation) (d : DockerContainer) : Prog DockerContainer :=
  match op with
  | OpStart => bind (Start d) (fun r => Ret (fst r))
  | OpStop optionalTimeout => bind (Stop d optionalTimeout) (fun r => Ret (fst r))
  | OpRemove => bind (Remove d) (fun r => Ret (fst r))
  | OpExitStatus => bind (ExitStatus d) (fun r => Ret (fst r))
  | OpIP network => bind (IPIn iteration d network) (fun r => Ret (fst r))
  | OpLogs => bind (Logs d) (fun r => Ret (fst r))
  | OpConnectToNetwork networkID => bind (ConnectToNetwork d networkID) (fun r => Ret (fst r))
  | OpDisconnectFromNetwork networkID =>
      bind (DisconnectFromNetwork d networkID) (fun r => Ret (fst r))
  end.

Fixpoint performAll (iteration : gmap string (option EndpointSettings) -> list (string * option EndpointSettings))
    (ops : list operation) (d : DockerContainer) : Prog DockerContainer :=
  match ops with
  | [] => Ret d
  | op :: rest => bind (perform iteration op d) (performAll iteration rest)
  end.

(** ** Engines to run against *)

(** An engine without state that lists [containers], answers a creation
    with [created] and an inspection with [inspected], and never reports an
    error. *)
Definition quietEngine (containers : list Container) (created : ContainerCreateCreatedBody)
    (inspected : ContainerJSON) (w : unit) (c : Client) (r : request) : response r * unit :=
  (match r return response r with
   | ContainerList _ => (containers, None)
   | ContainerCreate _ _ _ => (created, None)
   | NetworkConnect _ _ => None
   | NetworkDisconnect _ _ _ => None
   | ContainerStart _ _ => None
   | ContainerRemove _ _ => None
   | ContainerStop _ _ => None
   | ContainerInspect _ => (inspected, None)
   | ContainerLogs _ _ => (Some (EngineStream 0), None)
   end, w).

(** The primary name of a listed container, when it has one. *)
Definition primaryName (cont : Container) : option string := Names cont !! 0%nat.

(** A name longer than the primary name of every container of a list, hence
    the name of none of them. *)
Definition unusedName (containers : list Container) : string :=
  fold_right (fun cont acc => default "" (primaryName cont) +:+ acc) "x" containers.

(** Whether the primary name of a container is [name]. *)
Definition matchesName (name : string) (cont : Container) : bool :=
  match primaryName cont with
  | Some first => String.eqb first name
  | None => false
  end.

(** A logged request goes through the handle's client and is about the
    handle's container. *)
Definition onContainer (d : DockerContainer) (entry : Client * request) : Prop :=
  entry.1 = client d /\ targetOf entry.2 = Some (id d).

(** An engine without state that answers every request with the error [e];
    next to the error a listing still carries [containers] and a creation an
    identifier, as a Go [(value, error)] pair can. *)
Definition failingEngine (containers : list Container) (e : error) (w : unit) (c : Client)
    (r : request) : response r * unit :=
  (match r return response r with
   | ContainerList _ => (containers, Some e)
   | ContainerCreate _ _ _ => ({| CreatedID := "ffff" |}, Some e)
   | NetworkConnect _ _ => Some e
   | NetworkDisconnect _ _ _ => Some e
   | ContainerStart _ _ => Some e
   | ContainerRemove _ _ => Some e
   | ContainerStop _ _ => Some e
   | ContainerInspect _ => ({| State := None; NetworkSettingsOf := None |}, Some e)
   | ContainerLogs _ _ => (None, Some e)
   end, w).

(** The requests the operations on a created handle may send: no creation
    and no listing, a removal only with [Force], a disconnection only
    forced. *)
Definition operationRequest (r : request) : Prop :=
  match r with
  | ContainerList _ => False
  | ContainerCreate _ _ _ => False
  | NetworkDisconnect _ _ force => force = true
  | ContainerRemove _ options => Force options = true
  | _ => True
  end.

(** A listed container has a primary name, and it is not [name]. *)
Definition namedOtherThan (name : string) (cont : Container) : Prop :=
  exists first, Names cont !! 0%nat = Some first /\ first <> name.

(** * Properties *)

(** ** Flags on a command line *)

Lemma stripPrefix_append (p s : string) : stripPrefix p (p +:+ s) = Some s.
Proof.
  induction p as [|a p IH]; simpl; [reflexivity|].
  now rewrite Ascii.eqb_refl.
Qed.

Lemma prefix_stripPrefix (p s : string) :
  String.prefix p s = true <-> is_Some (stripPrefix p s).
Proof.
  revert s. induction p as [|a p IH]; intros s; simpl.
  - destruct s; split; eauto.
  - destruct s as [|b s]; simpl.
    + split; [discriminate|intros [? ?]; discriminate].
    + destruct (ascii_dec a b) as [->|Hne].
      * rewrite Ascii.eqb_refl. apply IH.
      * apply Ascii.eqb_neq in Hne. rewrite Hne.
        split; [discriminate|intros [? ?]; discriminate].
Qed.

Lemma flagValues_app (key : string) (l1 l2 : list string) :
  flagValues key (l1 ++ l2) = flagValues key l1 ++ flagValues key l2.
Proof. apply omap_app. Qed.

Lemma flagsNamed_length (key : string) (cmd : list string) :
  length (flagsNamed key cmd) = length (flagValues key cmd).
Proof.
  unfold flagsNamed, flagValues.
  induction cmd as [|arg cmd IH]; simpl; [reflexivity|].
  unfold isFlag, flagValue.
  destruct (stripPrefix (flagPrefix key) arg) as [v|] eqn:Hv.
  - assert (Hp : String.prefix (flagPrefix key) arg = true)
      by (apply prefix_stripPrefix; rewrite Hv; eauto).
    rewrite Hp. simpl. now f_equal.
  - destruct (String.prefix (flagPrefix key) arg) eqn:Hp; [|exact IH].
    apply prefix_stripPrefix in Hp. rewrite Hv in Hp. destruct Hp; discriminate.
Qed.

Lemma flagValues_map_flag (key : string) (values : list string) :
  flagValues key (map (fun v => flagPrefix key +:+ v) values) = values.
Proof.
  unfold flagValues.
  induction values as [|v values IH]; simpl; [reflexivity|].
  unfold flagValue at 1. rewrite stripPrefix_append. simpl. now f_equal.
Qed.

(** ** [CreatePumba]'s loop *)

Lemma append_each {A B : Type} (f : A -> B) (l : list A) (acc : list B) :
  fold_left (fun cmd x => cmd ++ [f x]) l acc = acc ++ map f l.
Proof.
  revert acc. induction l as [|x l IH]; intros acc; simpl.
  - now rewrite app_nil_r.
  - rewrite IH. now rewrite <- app_assoc.
Qed.

Lemma pumbaCmd_shape (containerName : string) (targetIPs : list string) :
  pumbaCmd containerName targetIPs =
    ["--log-level=debug"; "netem"; "--duration=100m"]
      ++ map (fun ip => "--target=" +:+ ip) targetIPs
      ++ ["--tc-image=gaiadocker/iproute2"; "loss"; "--percent=100"; containerName].
Proof.
  unfold pumbaCmd.
  rewrite (append_each (fun ip => "--target=" +:+ ip)).
  now rewrite <- app_assoc.
Qed.

Lemma pumbaCmd_removelast (containerName : string) (targetIPs : list string) :
  removelast (pumbaCmd containerName targetIPs) =
    ["--log-level=debug"; "netem"; "--duration=100m"]
      ++ map (fun ip => "--target=" +:+ ip) targetIPs
      ++ ["--tc-image=gaiadocker/iproute2"; "loss"; "--percent=100"].
Proof.
  rewrite pumbaCmd_shape.
  change ["--tc-image=gaiadocker/iproute2"; "loss"; "--percent=100"; containerName]
    with (["--tc-image=gaiadocker/iproute2"; "loss"; "--percent=100"] ++ [containerName]).
  rewrite !app_assoc. rewrite removelast_last. reflexivity.
Qed.

(** C3. The command line [CreatePumba] sends is the base invocation, then
    one [--target=] flag per IP of [targetIPs] in the order of the list, then
    the fixed profile [--tc-image=gaiadocker/iproute2 loss --percent=100] and
    the container name. Before the container name the values of the target
    flags are exactly [targetIPs]; the same holds of the whole command line,
    and the number of target flags is the number of IPs, when the container
    name does not itself read as a target flag. *)
Theorem CreatePumba_target_flags (d : DockerContainer) (name containerName : string)
    (targetIPs : list string) :
  exists cfg hostConfig,
    firstRequest (CreatePumba d name containerName targetIPs)
      = Some (ContainerCreate cfg hostConfig name) /\
    Cmd cfg =
      ["--log-level=debug"; "netem"; "--duration=100m"]
        ++ map (fun ip => "--target=" +:+ ip) targetIPs
        ++ ["--tc-image=gaiadocker/iproute2"; "loss"; "--percent=100"; containerName] /\
    flagValues "target" (removelast (Cmd cfg)) = targetIPs /\
    (isFlag "target" containerName = false ->
       flagValues "target" (Cmd cfg) = targetIPs /\
       length (flagsNamed "target" (Cmd cfg)) = length targetIPs).
Proof.
  eexists. eexists. split; [reflexivity|]. cbn [Cmd].
  split; [apply pumbaCmd_shape|]. split.
  - rewrite pumbaCmd_removelast, !flagValues_app.
    rewrite (flagValues_map_flag "target"). simpl. now rewrite app_nil_r.
  - intros Hname.
    assert (Hv : flagValues "target" (pumbaCmd containerName targetIPs) = targetIPs).
    { rewrite pumbaCmd_shape, !flagValues_app.
      rewrite (flagValues_map_flag "target").
      assert (Hn : flagValue "target" containerName = None).
      { destruct (flagValue "target" containerName) eqn:E; [|reflexivity].
        assert (Hp : isFlag "target" containerName = true)
          by (apply prefix_stripPrefix; unfold flagValue in E; rewrite E; eauto).
        congruence. }
      unfold flagValues. simpl. rewrite Hn. simpl. now rewrite app_nil_r. }
    split; [exact Hv|]. now rewrite flagsNamed_length, Hv.
Qed.

(** The case of two targets, on a container named [replica_1]. *)
Lemma CreatePumba_target_flags_witness :
  isFlag "target" "replica_1" = false /\
  length (flagsNamed "target"
            (pumbaCmd "replica_1" ["172.18.0.3"; "172.18.0.4"])) = 2%nat.
Proof.
  split; [reflexivity|].
  destruct (CreatePumba_target_flags (NewDockerContainer newDockerClient) "pumba"
              "replica_1" ["172.18.0.3"; "172.18.0.4"])
    as (cfg & hostConfig & Hreq & _ & _ & Hcount).
  injection Hreq as <- _.
  exact (proj2 (Hcount eq_refl)).
Defined.

(** ** The node containers' arguments *)

Section BuilderProperties.

Variables disabledPluginsEntryNode coordinatorSeed coordinatorAddress : string.
Variables ParaPoWDifficulty coordinatorIntervalSeconds coordinatorSecurityLevel
  coordinatorMerkleTreeDepth APIPort : Z.

(** C2. The arguments [CreateHornetEntryNode] sends hold the entry-node list
    flag once, with the empty value, and the seed flag once, its value the
    given seed in the [base58:] notation; the plugins disabled are the entry
    node's set, and no argument is a coordinator flag. *)
Theorem CreateHornetEntryNode_arguments (d : DockerContainer) (name seed : string) :
  exists cfg,
    firstRequest (CreateHornetEntryNode disabledPluginsEntryNode d name seed)
      = Some (ContainerCreate cfg None name) /\
    In "--autopeering.entryNodes=" (Cmd cfg) /\
    flagValues "autopeering.entryNodes" (Cmd cfg) = [""] /\
    In ("--autopeering.seed=base58:" +:+ seed) (Cmd cfg) /\
    flagValues "autopeering.seed" (Cmd cfg) = ["base58:" +:+ seed] /\
    flagValues "node.disablePlugins" (Cmd cfg) = [disabledPluginsEntryNode] /\
    List.filter isCoordinatorFlag (Cmd cfg) = [].
Proof.
  eexists. split; [reflexivity|]. cbn [Cmd entryNodeContainerConfig].
  repeat split; simpl; auto.
Qed.


End BuilderProperties.


(** ** [Stop] *)

(** C6. Without a timeout [Stop] sends one stop request for the handle's
    container with three minutes (180 seconds, in nanoseconds); with timeouts
    given it sends the first of them as it is, five seconds for instance. *)
Theorem Stop_timeout (d : DockerContainer) :
  Stop d None
    = Call (client d) (ContainerStop (id d) (3 * Minute)) (fun err => Ret (d, err)) /\
  3 * Minute = 180 * Second /\
  3 * Minute = 180000000000 /\
  (forall (timeout : Duration) (more : list Duration),
     Stop d (Some (timeout :: more))
       = Call (client d) (ContainerStop (id d) timeout) (fun err => Ret (d, err))) /\
  firstRequest (Stop d (Some [5 * Second])) = Some (ContainerStop (id d) 5000000000).
Proof. repeat split. Qed.

(** C9. With a timeout slice that is not [nil], [Stop] reads its element 0
    whatever its length: the read is in bounds, and the stop request goes
    out with that element, exactly when the slice has an element; on the
    empty slice the read panics, before any request. *)
Theorem Stop_reads_first_timeout (d : DockerContainer) (timeouts : list Duration) :
  (timeouts = [] <->
     Stop d (Some timeouts) = Panic "runtime error: index out of range [0] with length 0") /\
  (timeouts <> [] <->
     exists duration,
       timeouts !! 0%nat = Some duration /\
       Stop d (Some timeouts)
         = Call (client d) (ContainerStop (id d) duration) (fun err => Ret (d, err))).
Proof.
  destruct timeouts as [|t more]; simpl; split; split; try congruence; try discriminate.
  - reflexivity.
  - intros (duration & Hd & _). discriminate.
  - intros _. exists t. split; reflexivity.
Qed.

Lemma Stop_reads_first_timeout_witness :
  Stop (NewDockerContainer newDockerClient) (Some [])
    = Panic "runtime error: index out of range [0] with length 0".
Proof.
  exact (proj1 (proj1 (Stop_reads_first_timeout (NewDockerContainer newDockerClient) []))
           eq_refl).
Defined.

(** ** [Logs] *)

(** C7, as the code has it. [Logs] sends one log request for the handle's
    container, for both standard output and standard error, from the
    container's start ([Since] empty) and without a bound on the lines
    ([Tail] empty), and not in follow mode: the engine ends the stream when
    it has sent what the container has logged so far. The stream is handed
    back as the engine gave it. *)
Theorem Logs_options (d : DockerContainer) :
  exists options,
    Logs d = Call (client d) (ContainerLogs (id d) options) (fun r => Ret (d, r)) /\
    ShowStdout options = true /\
    ShowStderr options = true /\
    Since options = "" /\
    Tail options = "" /\
    Follow options = false /\
    Timestamps options = false /\
    Details options = false.
Proof. eexists. repeat split. Qed.

(** No log request of [Logs] is in follow mode: the claim C7 as the
    specification words it fails on any handle. *)
Lemma Logs_not_follow_mode :
  ~ exists options,
      firstRequest (Logs (NewDockerContainer newDockerClient))
        = Some (ContainerLogs "" options) /\
      ShowStdout options = true /\ ShowStderr options = true /\ Follow options = true.
Proof.
  intros (options & Hreq & _ & _ & Hfollow).
  simpl in Hreq. injection Hreq as <-. discriminate.
Qed.

(** ** Resolving a container by name *)

Lemma findByName_named (c : Client) (name : string) (containers : list Container) :
  Forall (fun cont => Names cont <> []) containers ->
  findByName c name containers =
    match List.find (matchesName name) containers with
    | Some cont => Ret (Some {| client := c; id := ID cont |}, None)
    | None => Ret (None, Some (Errorf ("could not find container with name '" +:+ name +:+ "'")))
    end.
Proof.
  induction 1 as [|cont rest Hcont _ IH]; simpl; [reflexivity|].
  unfold matchesName, primaryName.
  destruct (Names cont) as [|first others]; [congruence|]. simpl.
  destruct (String.eqb first name); [reflexivity|exact IH].
Qed.

Lemma length_append (s1 s2 : string) :
  String.length (s1 +:+ s2) = (String.length s1 + String.length s2)%nat.
Proof. induction s1 as [|a s1 IH]; simpl; [reflexivity|now rewrite IH]. Qed.

Lemma unusedName_longer (containers : list Container) (cont : Container) (first : string) :
  In cont containers -> primaryName cont = Some first ->
  (String.length first < String.length (unusedName containers))%nat.
Proof.
  induction containers as [|cont' rest IH]; simpl; [tauto|].
  intros [->|Hin] Hfirst; rewrite length_append.
  - rewrite Hfirst. simpl.
    assert (0 < String.length (unusedName rest))%nat; [|lia].
    clear. induction rest as [|x rest IH]; simpl; [lia|].
    rewrite length_append. lia.
  - specialize (IH Hin Hfirst). lia.
Qed.

Lemma findByName_unnamed (c : Client) (name : string) (containers : list Container) :
  (forall cont first, In cont containers -> primaryName cont = Some first -> first <> name) ->
  Exists (fun cont => Names cont = []) containers ->
  findByName c name containers = Panic "runtime error: index out of range [0] with length 0".
Proof.
  intros Hfresh Hex. induction Hex as [cont rest Hcont|cont rest _ IH]; simpl.
  - rewrite Hcont. reflexivity.
  - destruct (Names cont !! 0%nat) as [first|] eqn:Hfirst.
    + assert (Hne : first <> name) by (apply (Hfresh cont); [now left|exact Hfirst]).
      apply String.eqb_neq in Hne. rewrite Hne.
      apply IH. intros cont' first' Hin. apply Hfresh. now right.
    + destruct (Names cont); [reflexivity|discriminate].
Qed.

Section Engine.

Context {World : Type}.
Variable engine : World -> Client -> forall r : request, response r * World.

Lemma run_NewDockerContainerFromExisting (c : Client) (name : string) (w w' : World)
    (containers : list Container) :
  engine w c (ContainerList ContainerListOptionsZero) = ((containers, None), w') ->
  run engine (NewDockerContainerFromExisting c name) w =
    (let '(o, w2, log) := run engine (findByName c name containers) w' in
     (o, w2, (c, ContainerList ContainerListOptionsZero) :: log)).
Proof. intros Hlist. simpl. rewrite Hlist. reflexivity. Qed.

Lemma run_findByName_log (c : Client) (name : string) (w : World) (containers : list Container) :
  exists o, run engine (findByName c name containers) w = (o, w, []).
Proof.
  induction containers as [|cont rest IH]; simpl; [eauto|].
  destruct (Names cont !! 0%nat) as [first|]; simpl; [|eauto].
  destruct (String.eqb first name); simpl; eauto.
Qed.

(** C5. On a container list whose entries all have a primary name, the
    lookup sends the one list request and returns the handle of the first
    container whose primary name is the requested name, its identifier that
    container's [ID]; when no primary name is the requested one, as on the
    empty list, it returns no handle and the error
    [could not find container with name '<name>']. *)
Theorem NewDockerContainerFromExisting_first_match (c : Client) (name : string)
    (w w' : World) (containers : list Container) :
  engine w c (ContainerList ContainerListOptionsZero) = ((containers, None), w') ->
  Forall (fun cont => Names cont <> []) containers ->
  run engine (NewDockerContainerFromExisting c name) w =
    (Returned
       match List.find (fun cont => bool_decide (Names cont !! 0%nat = Some name)) containers with
       | Some cont => (Some {| client := c; id := ID cont |}, None)
       | None =>
           (None, Some (Errorf ("could not find container with name '" +:+ name +:+ "'")))
       end,
     w', [(c, ContainerList ContainerListOptionsZero)]).
Proof.
  intros Hlist Hnames.
  rewrite (run_NewDockerContainerFromExisting _ _ _ _ _ Hlist).
  rewrite (findByName_named _ _ _ Hnames).
  assert (Hfind : List.find (matchesName name) containers
                  = List.find (fun cont => bool_decide (Names cont !! 0%nat = Some name)) containers).
  { clear. induction containers as [|cont rest IH]; simpl; [reflexivity|].
    rewrite IH. unfold matchesName, primaryName.
    destruct (Names cont !! 0%nat) as [first|]; [|reflexivity].
    destruct (String.eqb_spec first name) as [->|Hne].
    - now rewrite bool_decide_eq_true_2.
    - rewrite bool_decide_eq_false_2; [reflexivity|congruence]. }
  rewrite Hfind. clear Hfind.
  destruct (List.find _ containers); reflexivity.
Qed.

(** C10. The lookup reads element 0 of each container's [Names] as it comes
    to it. When every entry of the list has a name no lookup panics; when
    some entry has none, the lookup of a name that no entry carries panics
    with an index out of range. *)
Theorem NewDockerContainerFromExisting_reads_first_name (c : Client) (w w' : World)
    (containers : list Container) :
  engine w c (ContainerList ContainerListOptionsZero) = ((containers, None), w') ->
  (Forall (fun cont => Names cont <> []) containers ->
     forall name, exists r,
       run engine (NewDockerContainerFromExisting c name) w
         = (Returned r, w', [(c, ContainerList ContainerListOptionsZero)])) /\
  (Exists (fun cont => Names cont = []) containers ->
     run engine (NewDockerContainerFromExisting c (unusedName containers)) w
       = (Panicked "runtime error: index out of range [0] with length 0", w',
          [(c, ContainerList ContainerListOptionsZero)])).
Proof.
  intros Hlist. split.
  - intros Hnames name.
    rewrite (run_NewDockerContainerFromExisting _ _ _ _ _ Hlist).
    rewrite (findByName_named _ _ _ Hnames).
    destruct (List.find _ containers); simpl; eauto.
  - intros Hex.
    rewrite (run_NewDockerContainerFromExisting _ _ _ _ _ Hlist).
    rewrite findByName_unnamed; [reflexivity| |exact Hex].
    intros cont first Hin Hfirst ->.
    pose proof (unusedName_longer _ _ _ Hin Hfirst). lia.
Qed.

End Engine.

(** ** The address in a network *)

Lemma scanNetworks_attached (network : string) (v : option EndpointSettings)
    (entries : list (string * option EndpointSettings)) :
  NoDup entries.*1 -> (network, v) ∈ entries ->
  scanNetworks network entries =
    match v with
    | Some ep => Ret (IPAddress ep, None)
    | None => Panic nilDereference
    end.
Proof.
  induction entries as [|[name v'] rest IH]; simpl; intros Hnodup Hin.
  - now apply elem_of_nil in Hin.
  - apply NoDup_cons in Hnodup as [Hfresh Hnodup].
    apply elem_of_cons in Hin as [Heq|Hin].
    + injection Heq as <- <-. now rewrite String.eqb_refl.
    + destruct (String.eqb_spec name network) as [->|_]; [|now apply IH].
      exfalso. apply Hfresh. apply list_elem_of_fmap. now exists (network, v).
Qed.

Lemma scanNetworks_unattached (network : string)
    (entries : list (string * option EndpointSettings)) :
  network ∉ entries.*1 ->
  scanNetworks network entries =
    Ret ("", Some (Errorf ("IP address in " +:+ network +:+ " could not be determined"))).
Proof.
  induction entries as [|[name v] rest IH]; simpl; intros Hnotin; [reflexivity|].
  apply not_elem_of_cons in Hnotin as [Hne Hnotin].
  destruct (String.eqb_spec name network) as [->|_]; [congruence|now apply IH].
Qed.

Lemma scanNetworks_no_request (network : string)
    (entries : list (string * option EndpointSettings)) :
  (exists r, scanNetworks network entries = Ret r) \/
  (exists msg, scanNetworks network entries = Panic msg).
Proof.
  induction entries as [|[name v] rest IH]; simpl; [eauto|].
  destruct (String.eqb name network); [|exact IH].
  destruct v; eauto.
Qed.

Section EngineHandle.

Context {World : Type}.
Variable engine : World -> Client -> forall r : request, response r * World.
Variable iteration : gmap string (option EndpointSettings) -> list (string * option EndpointSettings).

(** C4. When the inspection fails, [IP] hands the engine's error back as it
    is. When it succeeds, for whichever order the networks are gone through:
    a network the container is attached to yields its endpoint's address and
    no error; a network it is not attached to yields the error
    [IP address in <network> could not be determined], made here and naming
    the network asked for. *)
Theorem IP_of_network (d : DockerContainer) (network : string) (w w' : World)
    (resp : ContainerJSON) (err : option error) :
  engine w (client d) (ContainerInspect (id d)) = ((resp, err), w') ->
  match err with
  | Some e =>
      run engine (IPIn iteration d network) w
        = (Returned (d, ("", Some e)), w', [(client d, ContainerInspect (id d))])
  | None =>
      forall settings,
        NetworkSettingsOf resp = Some settings ->
        iteration (Networks settings) ≡ₚ map_to_list (Networks settings) ->
        (forall ep,
           Networks settings !! network = Some (Some ep) ->
           run engine (IPIn iteration d network) w
             = (Returned (d, (IPAddress ep, None)), w',
                [(client d, ContainerInspect (id d))])) /\
        (Networks settings !! network = None ->
           run engine (IPIn iteration d network) w
             = (Returned
                  (d, ("", Some (Errorf ("IP address in " +:+ network
                                           +:+ " could not be determined")))),
                w', [(client d, ContainerInspect (id d))]))
  end.
Proof.
  intros Hinspect. destruct err as [e|].
  - simpl. rewrite Hinspect. reflexivity.
  - intros settings Hsettings Hperm.
    assert (Hnodup : NoDup (iteration (Networks settings)).*1).
    { rewrite Hperm. apply NoDup_fst_map_to_list. }
    split.
    + intros ep Hlookup. simpl. rewrite Hinspect, Hsettings.
      rewrite (scanNetworks_attached network (Some ep)); [reflexivity|exact Hnodup|].
      rewrite Hperm. now apply elem_of_map_to_list.
    + intros Hlookup. simpl. rewrite Hinspect, Hsettings.
      rewrite scanNetworks_unattached; [reflexivity|].
      rewrite Hperm. intros Hin.
      apply list_elem_of_fmap in Hin as ([name v] & Hname & Hin). simpl in Hname. subst name.
      apply elem_of_map_to_list in Hin. congruence.
Qed.

(** ** The identifier of a handle *)

Lemma run_bind {A B : Type} (p : Prog A) (f : A -> Prog B) (w : World) :
  run engine (bind p f) w =
    (let '(o, w1, log1) := run engine p w in
     match o with
     | Returned a => let '(o2, w2, log2) := run engine (f a) w1 in (o2, w2, log1 ++ log2)
     | Panicked msg => (Panicked msg, w1, log1)
     end).
Proof.
  revert w. induction p as [a|msg|c r k IH]; intros w; simpl.
  - destruct (run engine (f a) w) as [[o2 w2] log2]. reflexivity.
  - reflexivity.
  - destruct (engine w c r) as [x w1]. rewrite IH.
    destruct (run engine (k x) w1) as [[o w2] log1].
    destruct o as [a|msg]; [|reflexivity].
    destruct (run engine (f a) w2) as [[o2 w3] log2]. reflexivity.
Qed.

Lemma CreateContainer_sets_id (d d1 : DockerContainer) (name : string) (cfg : Config)
    (hostConfigs : slice (option HostConfig)) (w w1 : World) (log : list (Client * request)) :
  run engine (CreateContainer d name cfg hostConfigs) w = (Returned (d1, None), w1, log) ->
  exists hostConfig resp,
    engine w (client d) (ContainerCreate cfg hostConfig name) = ((resp, None), w1) /\
    log = [(client d, ContainerCreate cfg hostConfig name)] /\
    d1 = {| client := client d; id := CreatedID resp |}.
Proof.
  unfold CreateContainer. cbn [run]. intros Hrun.
  match type of Hrun with context [ContainerCreate cfg ?h name] => exists h end.
  destruct (engine w (client d) (ContainerCreate cfg _ name)) as [[resp err] w2].
  destruct err as [e|]; simpl in Hrun; [discriminate|].
  injection Hrun as <- <- <-. exists resp. auto.
Qed.

Lemma perform_same_container (op : operation) (d : DockerContainer) (w w' : World)
    (o : outcome DockerContainer) (log : list (Client * request)) :
  run engine (perform iteration op d) w = (o, w', log) ->
  Forall (onContainer d) log /\ (forall d', o = Returned d' -> d' = d).
Proof.
  assert (Hon : forall r, targetOf r = Some (id d) -> onContainer d (client d, r))
    by (intros r Hr; split; [reflexivity|exact Hr]).
  destruct op as [|optionalTimeout| | |network| |networkID|networkID]; cbn [perform].
  - simpl. destruct (engine _ _ _) as [err w1]. simpl.
    intros [= <- <- <-]. split; [auto|congruence].
  - destruct optionalTimeout as [[|t more]|]; simpl.
    + intros [= <- <- <-]. split; [constructor|discriminate].
    + destruct (engine _ _ _) as [err w1]. simpl.
      intros [= <- <- <-]. split; [auto|congruence].
    + destruct (engine _ _ _) as [err w1]. simpl.
      intros [= <- <- <-]. split; [auto|congruence].
  - simpl. destruct (engine _ _ _) as [err w1]. simpl.
    intros [= <- <- <-]. split; [auto|congruence].
  - simpl. destruct (engine _ _ _) as [[resp [e|]] w1]; simpl.
    + intros [= <- <- <-]. split; [auto|congruence].
    + destruct (State resp); simpl; intros [= <- <- <-];
        (split; [auto|congruence || discriminate]).
  - simpl. destruct (engine _ _ _) as [[resp [e|]] w1]; simpl.
    + intros [= <- <- <-]. split; [auto|congruence].
    + destruct (NetworkSettingsOf resp) as [settings|]; simpl.
      * destruct (scanNetworks_no_request network (iteration (Networks settings)))
          as [[r ->]|[msg ->]]; simpl; intros [= <- <- <-];
          (split; [auto|congruence || discriminate]).
      * intros [= <- <- <-]. split; [auto|discriminate].
  - simpl. destruct (engine _ _ _) as [r w1]. simpl.
    intros [= <- <- <-]. split; [auto|congruence].
  - simpl. destruct (engine _ _ _) as [err w1]. simpl.
    intros [= <- <- <-]. split; [auto|congruence].
  - simpl. destruct (engine _ _ _) as [err w1]. simpl.
    intros [= <- <- <-]. split; [auto|congruence].
Qed.

Lemma performAll_same_container (ops : list operation) (d : DockerContainer) (w w' : World)
    (o : outcome DockerContainer) (log : list (Client * request)) :
  run engine (performAll iteration ops d) w = (o, w', log) ->
  Forall (onContainer d) log /\ (forall d', o = Returned d' -> d' = d).
Proof.
  revert w w' o log. induction ops as [|op rest IH]; intros w w' o log; cbn [performAll].
  - simpl. intros [= <- <- <-]. split; [constructor|congruence].
  - rewrite run_bind.
    destruct (run engine (perform iteration op d) w) as [[o1 w1] log1] eqn:Hop.
    apply perform_same_container in Hop as [Hlog1 Hsame].
    destruct o1 as [d1|msg].
    + rewrite (Hsame d1 eq_refl).
      destruct (run engine (performAll iteration rest d) w1) as [[o2 w2] log2] eqn:Hrest.
      apply IH in Hrest as [Hlog2 Hsame2].
      intros [= <- <- <-]. split; [now apply Forall_app|exact Hsame2].
    + intros [= <- <- <-]. split; [exact Hlog1|discriminate].
Qed.

Local Ltac one_request :=
  simpl; intros [= <- <- <-];
  split; [repeat constructor|split; [simpl; lia|simpl; intros; congruence]].

Lemma perform_requests (op : operation) (d : DockerContainer) (w w' : World)
    (o : outcome DockerContainer) (log : list (Client * request)) :
  run engine (perform iteration op d) w = (o, w', log) ->
  Forall (fun entry => operationRequest entry.2) log /\
  (length log <= 1)%nat /\
  (forall d', o = Returned d' -> length log = 1%nat).
Proof.
  destruct op as [|optionalTimeout| | |network| |networkID|networkID]; cbn [perform].
  - simpl. destruct (engine _ _ _) as [err w1]. one_request.
  - destruct optionalTimeout as [[|t more]|]; simpl.
    + one_request.
    + destruct (engine _ _ _) as [err w1]. one_request.
    + destruct (engine _ _ _) as [err w1]. one_request.
  - simpl. destruct (engine _ _ _) as [err w1]. one_request.
  - simpl. destruct (engine _ _ _) as [[resp [e|]] w1]; [one_request|].
    destruct (State resp); one_request.
  - simpl. destruct (engine _ _ _) as [[resp [e|]] w1]; [one_request|].
    destruct (NetworkSettingsOf resp) as [settings|]; [|one_request].
    simpl.
    destruct (scanNetworks_no_request network (iteration (Networks settings)))
      as [[r ->]|[msg ->]]; one_request.
  - simpl. destruct (engine _ _ _) as [r w1]. one_request.
  - simpl. destruct (engine _ _ _) as [err w1]. one_request.
  - simpl. destruct (engine _ _ _) as [err w1]. one_request.
Qed.

Lemma performAll_requests (ops : list operation) (d : DockerContainer) (w w' : World)
    (o : outcome DockerContainer) (log : list (Client * request)) :
  run engine (performAll iteration ops d) w = (o, w', log) ->
  Forall (fun entry => operationRequest entry.2) log /\
  (length log <= length ops)%nat /\
  (forall d', o = Returned d' -> length log = length ops).
Proof.
  revert w w' o log. induction ops as [|op rest IH]; intros w w' o log; cbn [performAll].
  - simpl. intros [= <- <- <-]. repeat split; auto.
  - rewrite run_bind.
    destruct (run engine (perform iteration op d) w) as [[o1 w1] log1] eqn:Hop.
    pose proof (perform_same_container _ _ _ _ _ _ Hop) as [_ Hsame].
    apply perform_requests in Hop as (Hreq1 & Hle1 & Hone1).
    destruct o1 as [d1|msg].
    + rewrite (Hsame d1 eq_refl). specialize (Hone1 d1 eq_refl).
      destruct (run engine (performAll iteration rest d) w1) as [[o2 w2] log2] eqn:Hrest.
      apply IH in Hrest as (Hreq2 & Hle2 & Hall2).
      intros [= <- <- <-]. rewrite length_app. simpl.
      repeat split; [now apply Forall_app|lia|].
      intros d' Hd'. specialize (Hall2 d' Hd'). lia.
    + intros [= <- <- <-]. simpl. repeat split; [exact Hreq1|lia|discriminate].
Qed.

Lemma perform_sends_request (op : operation) (d : DockerContainer) (w : World) :
  op <> OpStop (Some []) ->
  exists r,
    (run engine (perform iteration op d) w).2 = [(client d, r)] /\
    targetOf r = Some (id d).
Proof.
  intros Hop.
  destruct op as [|optionalTimeout| | |network| |networkID|networkID]; cbn [perform].
  - simpl. destruct (engine _ _ _) as [err w1]. simpl. eauto.
  - destruct optionalTimeout as [[|t more]|]; [congruence| |];
      simpl; destruct (engine _ _ _) as [err w1]; simpl; eauto.
  - simpl. destruct (engine _ _ _) as [err w1]. simpl. eauto.
  - simpl. destruct (engine _ _ _) as [[resp [e|]] w1]; simpl; [eauto|].
    destruct (State resp); simpl; eauto.
  - simpl. destruct (engine _ _ _) as [[resp [e|]] w1]; simpl; [eauto|].
    destruct (NetworkSettingsOf resp) as [settings|]; simpl; [|eauto].
    destruct (scanNetworks_no_request network (iteration (Networks settings)))
      as [[r ->]|[msg ->]]; simpl; eauto.
  - simpl. destruct (engine _ _ _) as [r w1]. simpl. eauto.
  - simpl. destruct (engine _ _ _) as [err w1]. simpl. eauto.
  - simpl. destruct (engine _ _ _) as [err w1]. simpl. eauto.
Qed.

(** C8. After a creation call that succeeded, the handle's identifier is the
    one the engine gave the created container. From then on each of [Start],
    [Stop], [Remove], [ExitStatus], [IP], [Logs], [ConnectToNetwork] and
    [DisconnectFromNetwork] sends the engine exactly one request, through the
    handle's client and naming that identifier, whatever the engine answers
    ([Stop] on a timeout slice that is empty without being [nil] apart, which
    panics before its request). Through any run of these operations, each on
    the handle the one before left, every request sent names that identifier;
    a run that returns has sent one request for each operation and leaves the
    handle the creation left. *)
Theorem identifier_kept_after_creation (d d1 : DockerContainer) (name : string) (cfg : Config)
    (hostConfigs : slice (option HostConfig)) (w w1 : World) (log1 : list (Client * request)) :
  run engine (CreateContainer d name cfg hostConfigs) w = (Returned (d1, None), w1, log1) ->
  (exists hostConfig resp,
     engine w (client d) (ContainerCreate cfg hostConfig name) = ((resp, None), w1) /\
     id d1 = CreatedID resp) /\
  (forall (op : operation) (w2 : World),
     op <> OpStop (Some []) ->
     exists r,
       (run engine (perform iteration op d1) w2).2 = [(client d1, r)] /\
       targetOf r = Some (id d1)) /\
  forall (ops : list operation) (w2 : World) (o : outcome DockerContainer)
         (log : list (Client * request)),
    run engine (performAll iteration ops d1) w1 = (o, w2, log) ->
    Forall (fun entry => entry.1 = client d1 /\ targetOf entry.2 = Some (id d1)) log /\
    (length log <= length ops)%nat /\
    (forall d2, o = Returned d2 ->
       id d2 = id d1 /\ d2 = d1 /\ length log = length ops).
Proof.
  intros Hcreate.
  apply CreateContainer_sets_id in Hcreate as (hostConfig & resp & Hengine & _ & ->).
  split; [exists hostConfig, resp; auto|].
  split; [intros op w2 Hop; now apply perform_sends_request|].
  intros ops w2 o log Hrun.
  pose proof (performAll_requests _ _ _ _ _ _ Hrun) as (_ & Hle & Hall).
  apply performAll_same_container in Hrun as [Hlog Hsame].
  split; [exact Hlog|]. split; [exact Hle|].
  intros d2 Hd2. rewrite (Hsame d2 Hd2). repeat split. exact (Hall d2 Hd2).
Qed.

End EngineHandle.

(** ** The properties on a concrete engine *)

(** One container named [peer-1]: resolving [peer-1] gives its identifier. *)
Lemma NewDockerContainerFromExisting_first_match_witness :
  run (quietEngine [{| ID := "4f2a"; Names := ["peer-1"] |}] {| CreatedID := "" |}
         {| State := None; NetworkSettingsOf := None |})
      (NewDockerContainerFromExisting newDockerClient "peer-1") tt
    = (Returned (Some {| client := newDockerClient; id := "4f2a" |}, None), tt,
       [(newDockerClient, ContainerList ContainerListOptionsZero)]).
Proof.
  apply (NewDockerContainerFromExisting_first_match
           (quietEngine [{| ID := "4f2a"; Names := ["peer-1"] |}] {| CreatedID := "" |}
              {| State := None; NetworkSettingsOf := None |})
           newDockerClient "peer-1" tt tt [{| ID := "4f2a"; Names := ["peer-1"] |}]).
  - reflexivity.
  - repeat constructor. discriminate.
Defined.

(** A container without a name in the list: resolving an unused name panics. *)
Lemma NewDockerContainerFromExisting_reads_first_name_witness :
  run (quietEngine [{| ID := "4f2a"; Names := [] |}] {| CreatedID := "" |}
         {| State := None; NetworkSettingsOf := None |})
      (NewDockerContainerFromExisting newDockerClient "x") tt
    = (Panicked "runtime error: index out of range [0] with length 0", tt,
       [(newDockerClient, ContainerList ContainerListOptionsZero)]).
Proof.
  apply (proj2 (NewDockerContainerFromExisting_reads_first_name
                  (quietEngine [{| ID := "4f2a"; Names := [] |}] {| CreatedID := "" |}
                     {| State := None; NetworkSettingsOf := None |})
                  newDockerClient tt tt [{| ID := "4f2a"; Names := [] |}] eq_refl)).
  constructor. reflexivity.
Defined.

(** A container attached to the networks [A] and [B]: its address in [A],
    and the error for [C]. *)
Lemma IP_of_network_witness :
  let networks : gmap string (option EndpointSettings) :=
    <["A" := Some {| IPAddress := "172.18.0.2" |}]>
      (<["B" := Some {| IPAddress := "172.19.0.2" |}]> ∅) in
  let inspected :=
    {| State := None; NetworkSettingsOf := Some {| Networks := networks |} |} in
  let engine := quietEngine [] {| CreatedID := "" |} inspected in
  let d := {| client := newDockerClient; id := "4f2a" |} in
  run engine (IP d "A") tt
    = (Returned (d, ("172.18.0.2", None)), tt, [(newDockerClient, ContainerInspect "4f2a")]) /\
  run engine (IP d "C") tt
    = (Returned (d, ("", Some (Errorf "IP address in C could not be determined"))), tt,
       [(newDockerClient, ContainerInspect "4f2a")]).
Proof.
  intros networks inspected engine d. split.
  - apply (proj1 (IP_of_network engine map_to_list d "A" tt tt inspected None eq_refl
                    {| Networks := networks |} eq_refl (reflexivity _))
             {| IPAddress := "172.18.0.2" |}).
    vm_compute. reflexivity.
  - apply (proj2 (IP_of_network engine map_to_list d "C" tt tt inspected None eq_refl
                    {| Networks := networks |} eq_refl (reflexivity _))).
    vm_compute. reflexivity.
Defined.

(** A handle created as [4f2a], then started, asked for its address, stopped
    and removed: four requests, all about [4f2a]. *)
Lemma identifier_kept_after_creation_witness :
  let inspected := {| State := None; NetworkSettingsOf := Some {| Networks := ∅ |} |} in
  let engine := quietEngine [] {| CreatedID := "4f2a" |} inspected in
  let d1 := {| client := newDockerClient; id := "4f2a" |} in
  let ops := [OpStart; OpIP "A"; OpStop None; OpRemove] in
  Forall (fun entry : Client * request =>
            entry.1 = client d1 /\ targetOf entry.2 = Some (id d1))
    (run engine (performAll map_to_list ops d1) tt).2 /\
  length (run engine (performAll map_to_list ops d1) tt).2 = 4%nat.
Proof.
  intros inspected engine d1 ops.
  destruct (run engine (performAll map_to_list ops d1) tt) as [[o w2] log] eqn:Hrun.
  destruct (proj2 (proj2 (identifier_kept_after_creation engine map_to_list
                            (NewDockerContainer newDockerClient) d1 "replica_0"
                            {| Image := "hornet:dev"; ExposedPorts := ∅; Env := []; Cmd := [] |}
                            None tt tt
                            [(newDockerClient,
                              ContainerCreate
                                {| Image := "hornet:dev"; ExposedPorts := ∅; Env := []; Cmd := [] |}
                                None "replica_0")]
                            eq_refl)) ops w2 o log Hrun)
    as (Hlog & _ & Hreturned).
  split; [exact Hlog|].
  vm_compute in Hrun. injection Hrun as <- _ _.
  exact (proj2 (proj2 (Hreturned _ eq_refl))).
Defined.

(** * Further properties of the handle *)

(** ** What the lookup by name returns, whatever the list *)

Lemma findByName_no_request (c : Client) (name : string) (containers : list Container) :
  (exists r, findByName c name containers = Ret r) \/
  (exists msg, findByName c name containers = Panic msg).
Proof.
  induction containers as [|cont rest IH]; simpl; [eauto|].
  destruct (Names cont !! 0%nat) as [first|]; [|eauto].
  destruct (String.eqb first name); eauto.
Qed.

Lemma findByName_handle (c : Client) (name : string) (containers : list Container)
    (h : DockerContainer) (e : option error) :
  findByName c name containers = Ret (Some h, e) ->
  e = None /\ client h = c /\
  exists pre cont post,
    containers = pre ++ cont :: post /\
    Forall (namedOtherThan name) pre /\
    Names cont !! 0%nat = Some name /\
    id h = ID cont.
Proof.
  induction containers as [|cont rest IH]; simpl; [discriminate|].
  destruct (Names cont !! 0%nat) as [first|] eqn:Hfirst; [|discriminate].
  destruct (String.eqb_spec first name) as [->|Hne].
  - intros [= <- <-]. repeat split. exists [], cont, rest. auto.
  - intros Hrest. apply IH in Hrest as (-> & Hc & pre & found & post & -> & Hpre & Hn & Hid).
    repeat split; [exact Hc|].
    exists (cont :: pre), found, post. repeat split; auto.
    constructor; [exists first; auto|exact Hpre].
Qed.

Lemma findByName_absent (c : Client) (name : string) (containers : list Container)
    (e : option error) :
  findByName c name containers = Ret (None, e) ->
  e = Some (Errorf ("could not find container with name '" +:+ name +:+ "'")) /\
  Forall (namedOtherThan name) containers.
Proof.
  induction containers as [|cont rest IH]; simpl.
  - intros [= <-]. auto.
  - destruct (Names cont !! 0%nat) as [first|] eqn:Hfirst; [|discriminate].
    destruct (String.eqb_spec first name) as [->|Hne]; [discriminate|].
    intros Hrest. apply IH in Hrest as [-> Hall].
    split; [reflexivity|]. constructor; [exists first; auto|exact Hall].
Qed.

Lemma findByName_first (c : Client) (name : string) (pre post : list Container)
    (cont : Container) :
  Forall (namedOtherThan name) pre ->
  Names cont !! 0%nat = Some name ->
  findByName c name (pre ++ cont :: post)
    = Ret (Some {| client := c; id := ID cont |}, None).
Proof.
  intros Hpre Hname. induction Hpre as [|other pre (first & Hfirst & Hne) _ IH]; simpl.
  - rewrite Hname. now rewrite String.eqb_refl.
  - rewrite Hfirst. apply String.eqb_neq in Hne. rewrite Hne. exact IH.
Qed.

Section Resolver.

Context {World : Type}.
Variable engine : World -> Client -> forall r : request, response r * World.

Lemma run_resolved (c : Client) (name : string) (w w' w2 : World)
    (containers : list Container) (r : option DockerContainer * option error)
    (log : list (Client * request)) :
  engine w c (ContainerList ContainerListOptionsZero) = ((containers, None), w') ->
  run engine (NewDockerContainerFromExisting c name) w = (Returned r, w2, log) ->
  findByName c name containers = Ret r.
Proof.
  intros Hlist. rewrite (run_NewDockerContainerFromExisting engine _ _ _ _ _ Hlist).
  destruct (findByName_no_request c name containers) as [[r' ->]|[msg ->]]; simpl.
  - intros [= <- _ _]. reflexivity.
  - discriminate.
Qed.

(** X1. A handle the lookup returns is bound, through the given client, to a
    container of the engine's list whose primary name is the requested one,
    and every container listed before it has another primary name; no error
    comes with it. Conversely the first container with the requested primary
    name, after containers with other primary names, decides the result
    whatever follows it in the list: the entries after it are not read, so
    that one of them without a name does not make the lookup panic. *)
Theorem NewDockerContainerFromExisting_sound (c : Client) (name : string) (w w' w2 : World)
    (containers : list Container) (h : DockerContainer) (e : option error)
    (log : list (Client * request)) :
  engine w c (ContainerList ContainerListOptionsZero) = ((containers, None), w') ->
  (run engine (NewDockerContainerFromExisting c name) w = (Returned (Some h, e), w2, log) ->
   e = None /\ client h = c /\
   exists pre cont post,
     containers = pre ++ cont :: post /\
     Forall (namedOtherThan name) pre /\
     Names cont !! 0%nat = Some name /\
     id h = ID cont) /\
  (forall pre cont post,
     containers = pre ++ cont :: post ->
     Forall (namedOtherThan name) pre ->
     Names cont !! 0%nat = Some name ->
     run engine (NewDockerContainerFromExisting c name) w
       = (Returned (Some {| client := c; id := ID cont |}, None), w',
          [(c, ContainerList ContainerListOptionsZero)])).
Proof.
  intros Hlist. split.
  - intros Hrun. apply (findByName_handle c name containers).
    exact (run_resolved _ _ _ _ _ _ _ _ Hlist Hrun).
  - intros pre cont post -> Hpre Hname.
    rewrite (run_NewDockerContainerFromExisting engine _ _ _ _ _ Hlist).
    now rewrite (findByName_first c name pre post cont Hpre Hname).
Qed.

(** X2. When the list request succeeded and the lookup returns no handle,
    the error is the not-found error naming the requested name, and every
    listed container has a primary name other than the requested one. *)
Theorem NewDockerContainerFromExisting_not_found (c : Client) (name : string) (w w' w2 : World)
    (containers : list Container) (e : option error) (log : list (Client * request)) :
  engine w c (ContainerList ContainerListOptionsZero) = ((containers, None), w') ->
  run engine (NewDockerContainerFromExisting c name) w = (Returned (None, e), w2, log) ->
  e = Some (Errorf ("could not find container with name '" +:+ name +:+ "'")) /\
  Forall (namedOtherThan name) containers.
Proof.
  intros Hlist Hrun. apply (findByName_absent c name containers).
  exact (run_resolved _ _ _ _ _ _ _ _ Hlist Hrun).
Qed.

(** X3. When the list request fails, the lookup hands the engine's error
    back as it is, with no handle, and does not look at the list that came
    with the error: a matching entry is not returned and an entry without a
    name does not panic. *)
Theorem NewDockerContainerFromExisting_list_error (c : Client) (name : string) (w w' : World)
    (containers : list Container) (e : error) :
  engine w c (ContainerList ContainerListOptionsZero) = ((containers, Some e), w') ->
  run engine (NewDockerContainerFromExisting c name) w
    = (Returned (None, Some e), w', [(c, ContainerList ContainerListOptionsZero)]).
Proof. intros Hlist. simpl. rewrite Hlist. reflexivity. Qed.

End Resolver.

(** ** Creation, exit status and addresses *)

Lemma scanNetworks_order (network : string)
    (entries1 entries2 : list (string * option EndpointSettings)) :
  NoDup entries1.*1 -> entries1 ≡ₚ entries2 ->
  scanNetworks network entries1 = scanNetworks network entries2.
Proof.
  intros Hnodup1 Hperm.
  assert (Hnodup2 : NoDup entries2.*1) by (now rewrite <- Hperm).
  destruct (decide (network ∈ entries1.*1)) as [Hin|Hnotin].
  - apply list_elem_of_fmap in Hin as ([name v] & Hname & Hin). simpl in Hname. subst name.
    rewrite (scanNetworks_attached network v entries1 Hnodup1 Hin).
    rewrite (scanNetworks_attached network v entries2 Hnodup2); [reflexivity|].
    now rewrite <- Hperm.
  - rewrite (scanNetworks_unattached network entries1 Hnotin).
    rewrite (scanNetworks_unattached network entries2); [reflexivity|].
    now rewrite <- Hperm.
Qed.

Section Handle.

Context {World : Type}.
Variable engine : World -> Client -> forall r : request, response r * World.

(** X4. [CreateContainer] passes the engine the first of the host
    configurations it is given and [nil] when it is given none, also for a
    slice that is empty without being [nil] (the length is tested, so nothing
    is read out of range); host configurations after the first are dropped.
    The configuration and the name go through unchanged. *)
Theorem CreateContainer_host_config (d : DockerContainer) (name : string) (cfg : Config)
    (hostConfigs : slice (option HostConfig)) :
  firstRequest (CreateContainer d name cfg hostConfigs)
    = Some (ContainerCreate cfg
              match hostConfigs with
              | Some (first :: _) => first
              | Some [] => None
              | None => None
              end
              name).
Proof. destruct hostConfigs as [[|first more]|]; reflexivity. Qed.

(** X5. When the engine answers the creation with an error, [CreateContainer]
    returns that error and leaves the handle as it was: the identifier is not
    touched, whatever identifier came with the error, and the one request
    sent is the creation. *)
Theorem CreateContainer_failure_keeps_handle (d : DockerContainer) (name : string)
    (cfg : Config) (hostConfigs : slice (option HostConfig)) (w w1 : World)
    (hostConfig : option HostConfig) (resp : ContainerCreateCreatedBody) (e : error) :
  firstRequest (CreateContainer d name cfg hostConfigs)
    = Some (ContainerCreate cfg hostConfig name) ->
  engine w (client d) (ContainerCreate cfg hostConfig name) = ((resp, Some e), w1) ->
  run engine (CreateContainer d name cfg hostConfigs) w
    = (Returned (d, Some e), w1, [(client d, ContainerCreate cfg hostConfig name)]).
Proof.
  intros Hfirst Hengine. simpl in Hfirst. injection Hfirst as Hhost.
  unfold CreateContainer. cbn [run]. rewrite Hhost, Hengine. reflexivity.
Qed.

(** X6. [ExitStatus] sends one inspection of the handle's container. On an
    inspection error it returns -1 with that error; otherwise the exit code
    of the reported state and no error; and it panics on an answer without a
    state. The handle is left as it was. *)
Theorem ExitStatus_result (d : DockerContainer) (w w' : World) (resp : ContainerJSON)
    (err : option error) :
  engine w (client d) (ContainerInspect (id d)) = ((resp, err), w') ->
  run engine (ExitStatus d) w =
    (match err, State resp with
     | Some e, _ => Returned (d, (-1, Some e))
     | None, Some st => Returned (d, (ExitCode st, None))
     | None, None => Panicked nilDereference
     end, w', [(client d, ContainerInspect (id d))]).
Proof.
  intros Hinspect. simpl. rewrite Hinspect.
  destruct err as [e|]; [reflexivity|]. destruct (State resp); reflexivity.
Qed.

(** X7. The result of [IP] does not depend on the order in which the
    iteration over the networks yields them: two orders that both go through
    the entries of the map give the same run, returned value or panic. *)
Theorem IP_iteration_order
    (iteration1 iteration2 : gmap string (option EndpointSettings)
                             -> list (string * option EndpointSettings))
    (d : DockerContainer) (network : string) (w : World) :
  (forall m, iteration1 m ≡ₚ map_to_list m) ->
  (forall m, iteration2 m ≡ₚ map_to_list m) ->
  run engine (IPIn iteration1 d network) w = run engine (IPIn iteration2 d network) w.
Proof.
  intros Hperm1 Hperm2. simpl.
  destruct (engine w (client d) (ContainerInspect (id d))) as [[resp [e|]] w1]; [reflexivity|].
  destruct (NetworkSettingsOf resp) as [settings|]; [|reflexivity].
  rewrite (scanNetworks_order network (iteration1 (Networks settings))
             (iteration2 (Networks settings))); [reflexivity| |].
  - rewrite Hperm1. apply NoDup_fst_map_to_list.
  - now rewrite Hperm1, Hperm2.
Qed.

(** X8. [IP] panics on a nil pointer, after its one inspection request, when
    the answer has no network settings, and when the network asked for is in
    the map with a nil endpoint; nil endpoints of other networks do not
    matter, as they are not read. *)
Theorem IP_nil_pointer
    (iteration : gmap string (option EndpointSettings)
                 -> list (string * option EndpointSettings))
    (d : DockerContainer) (network : string) (w w' : World) (resp : ContainerJSON) :
  engine w (client d) (ContainerInspect (id d)) = ((resp, None), w') ->
  match NetworkSettingsOf resp with
  | None =>
      run engine (IPIn iteration d network) w
        = (Panicked nilDereference, w', [(client d, ContainerInspect (id d))])
  | Some settings =>
      iteration (Networks settings) ≡ₚ map_to_list (Networks settings) ->
      Networks settings !! network = Some None ->
      run engine (IPIn iteration d network) w
        = (Panicked nilDereference, w', [(client d, ContainerInspect (id d))])
  end.
Proof.
  intros Hinspect. destruct (NetworkSettingsOf resp) as [settings|] eqn:Hsettings.
  - intros Hperm Hlookup. simpl. rewrite Hinspect, Hsettings.
    rewrite (scanNetworks_attached network None); [reflexivity| |].
    + rewrite Hperm. apply NoDup_fst_map_to_list.
    + rewrite Hperm. now apply elem_of_map_to_list.
  - simpl. rewrite Hinspect, Hsettings. reflexivity.
Qed.

End Handle.

(** ** Runs of operations *)

Section Operations.

Context {World : Type}.
Variable engine : World -> Client -> forall r : request, response r * World.
Variable iteration : gmap string (option EndpointSettings) -> list (string * option EndpointSettings).

(** X9. Each of [Start], [Stop], [Remove], [ExitStatus], [IP], [Logs],
    [ConnectToNetwork] and [DisconnectFromNetwork] sends one request and no
    more: a run of such operations that returns has sent as many requests as
    it has operations, and one that panicked on the way at most as many. *)
Theorem operations_one_request_each (ops : list operation) (d : DockerContainer)
    (w w' : World) (o : outcome DockerContainer) (log : list (Client * request)) :
  run engine (performAll iteration ops d) w = (o, w', log) ->
  (length log <= length ops)%nat /\
  (forall d', o = Returned d' -> length log = length ops).
Proof.
  intros Hrun.
  apply (performAll_requests engine iteration) in Hrun as (_ & Hle & Hall). auto.
Qed.

(** X10. However the operations other than creation are combined, and
    whatever the engine answers, none of them lists or creates containers,
    every removal sent has [Force] set and every disconnection sent is
    forced. *)
Theorem operations_requests_forced (ops : list operation) (d : DockerContainer) (w : World) :
  Forall (fun entry => operationRequest entry.2)
    (run engine (performAll iteration ops d) w).2.
Proof.
  destruct (run engine (performAll iteration ops d) w) as [[o w'] log] eqn:Hrun.
  apply (performAll_requests engine iteration) in Hrun as (Hreq & _). exact Hreq.
Qed.


(** X12. A handle the lookup by name returns stays on the container it
    found: through any run of operations on it, every request names the
    identifier of one container of the engine's list whose primary name is
    the name looked up. *)
Theorem operations_after_lookup (c : Client) (name : string) (w w' w1 w2 : World)
    (containers : list Container) (h : DockerContainer) (e : option error)
    (log1 log : list (Client * request)) (ops : list operation)
    (o : outcome DockerContainer) :
  engine w c (ContainerList ContainerListOptionsZero) = ((containers, None), w') ->
  run engine (NewDockerContainerFromExisting c name) w = (Returned (Some h, e), w1, log1) ->
  run engine (performAll iteration ops h) w1 = (o, w2, log) ->
  exists cont,
    cont ∈ containers /\
    Names cont !! 0%nat = Some name /\
    Forall (fun entry => entry.1 = c /\ targetOf entry.2 = Some (ID cont)) log /\
    (forall h', o = Returned h' -> id h' = ID cont).
Proof.
  intros Hlist Hlookup Hrun.
  apply (run_resolved engine _ _ _ _ _ _ _ _ Hlist) in Hlookup.
  apply findByName_handle in Hlookup
    as (_ & Hclient & pre & cont & post & -> & _ & Hname & Hid).
  apply (performAll_same_container engine iteration) in Hrun as [Hlog Hsame].
  exists cont. split; [|split; [exact Hname|split]].
  - apply elem_of_app. right. apply elem_of_cons. now left.
  - eapply Forall_impl; [exact Hlog|].
    intros entry [Hc Ht]. rewrite Hc, Ht, Hclient, Hid. auto.
  - intros h' Hh'. now rewrite (Hsame h' Hh').
Qed.

End Operations.

(** ** The peer's own arguments *)

Section PeerProperties.

Variables coordinatorSeed coordinatorAddress : string.
Variables ParaPoWDifficulty coordinatorIntervalSeconds coordinatorSecurityLevel
  coordinatorMerkleTreeDepth APIPort : Z.

(** X13. Whatever the fields of the peer's configuration hold, the arguments
    [CreateHornetPeer] sends give each of them back under its own flag, once:
    the entry node as [<public key>@<host>:14626], the autopeering seed in
    the [base58:] notation, the local snapshot path and the disabled plugins
    as they are. The command line has fifteen arguments whatever the fields
    hold, so the content of a field never becomes an argument of its own.
    The API is bound to the port that the container exposes over TCP, and
    the container is created under the configuration's name. *)
Theorem CreateHornetPeer_config_flags (d : DockerContainer) (config : NodeConfig) :
  exists cfg hostConfig,
    firstRequest (CreateHornetPeer coordinatorSeed coordinatorAddress ParaPoWDifficulty
                    coordinatorIntervalSeconds coordinatorSecurityLevel
                    coordinatorMerkleTreeDepth APIPort d config)
      = Some (ContainerCreate cfg hostConfig (Name config)) /\
    flagValues "autopeering.entryNodes" (Cmd cfg)
      = [EntryNodePublicKey config +:+ "@" +:+ EntryNodeHost config +:+ ":14626"] /\
    flagValues "autopeering.seed" (Cmd cfg) = ["base58:" +:+ AutopeeringSeed config] /\
    flagValues "snapshots.local.path" (Cmd cfg) = [SnapshotFilePath config] /\
    flagValues "node.disablePlugins" (Cmd cfg) = [DisabledPlugins config] /\
    flagValues "httpAPI.bindAddress" (Cmd cfg) = [sprintf_d APIPort] /\
    ExposedPorts cfg = {[ sprintf_d APIPort +:+ "/tcp" ]} /\
    length (Cmd cfg) = 15%nat.
Proof.
  eexists. eexists. split; [reflexivity|]. cbn [Cmd ExposedPorts peerContainerConfig].
  repeat split; reflexivity.
Qed.

End PeerProperties.

(** ** The further properties on concrete engines *)

(** An entry node, then [peer-1], then an entry without a name: the lookup of
    [peer-1] returns the second and does not reach the third. *)
Lemma NewDockerContainerFromExisting_sound_witness :
  let containers :=
    [{| ID := "0e11"; Names := ["entry_node"] |}; {| ID := "4f2a"; Names := ["peer-1"] |};
     {| ID := "7c03"; Names := [] |}] in
  let engine :=
    quietEngine containers {| CreatedID := "" |} {| State := None; NetworkSettingsOf := None |} in
  (exists pre cont post,
     containers = pre ++ cont :: post /\
     Forall (namedOtherThan "peer-1") pre /\
     Names cont !! 0%nat = Some "peer-1" /\
     "4f2a" = ID cont) /\
  run engine (NewDockerContainerFromExisting newDockerClient "peer-1") tt
    = (Returned (Some {| client := newDockerClient; id := "4f2a" |}, None), tt,
       [(newDockerClient, ContainerList ContainerListOptionsZero)]).
Proof.
  intros containers engine.
  destruct (NewDockerContainerFromExisting_sound engine newDockerClient "peer-1" tt tt tt
              containers {| client := newDockerClient; id := "4f2a" |} None
              [(newDockerClient, ContainerList ContainerListOptionsZero)] eq_refl)
    as [Hsound Hfirst].
  split.
  - exact (proj2 (proj2 (Hsound eq_refl))).
  - apply (Hfirst [{| ID := "0e11"; Names := ["entry_node"] |}]
             {| ID := "4f2a"; Names := ["peer-1"] |} [{| ID := "7c03"; Names := [] |}]).
    + reflexivity.
    + repeat constructor. exists "entry_node". split; [reflexivity|discriminate].
    + reflexivity.
Defined.

(** Only an entry node is listed: the lookup of [peer-1] finds nothing. *)
Lemma NewDockerContainerFromExisting_not_found_witness :
  Forall (namedOtherThan "peer-1") [{| ID := "0e11"; Names := ["entry_node"] |}].
Proof.
  exact (proj2
    (NewDockerContainerFromExisting_not_found
       (quietEngine [{| ID := "0e11"; Names := ["entry_node"] |}]
          {| CreatedID := "" |} {| State := None; NetworkSettingsOf := None |})
       newDockerClient "peer-1" tt tt tt
       [{| ID := "0e11"; Names := ["entry_node"] |}]
       (Some (Errorf "could not find container with name 'peer-1'"))
       [(newDockerClient, ContainerList ContainerListOptionsZero)]
       eq_refl eq_refl)).
Defined.

(** The engine fails the listing, though the list it sends has [peer-1]. *)
Lemma NewDockerContainerFromExisting_list_error_witness :
  run (failingEngine [{| ID := "4f2a"; Names := ["peer-1"] |}]
         (ClientError "Cannot connect to the Docker daemon"))
      (NewDockerContainerFromExisting newDockerClient "peer-1") tt
    = (Returned (None, Some (ClientError "Cannot connect to the Docker daemon")), tt,
       [(newDockerClient, ContainerList ContainerListOptionsZero)]).
Proof.
  exact (NewDockerContainerFromExisting_list_error
           (failingEngine [{| ID := "4f2a"; Names := ["peer-1"] |}]
              (ClientError "Cannot connect to the Docker daemon"))
           newDockerClient "peer-1" tt tt [{| ID := "4f2a"; Names := ["peer-1"] |}]
           (ClientError "Cannot connect to the Docker daemon") eq_refl).
Defined.

(** A creation the engine refuses, on a handle already bound to [4f2a]. *)
Lemma CreateContainer_failure_keeps_handle_witness :
  let d := {| client := newDockerClient; id := "4f2a" |} in
  let cfg := {| Image := "hornet:dev"; ExposedPorts := ∅; Env := []; Cmd := [] |} in
  run (failingEngine [] (ClientError "No such image: hornet:dev"))
      (CreateContainer d "replica_0" cfg None) tt
    = (Returned (d, Some (ClientError "No such image: hornet:dev")), tt,
       [(newDockerClient, ContainerCreate cfg None "replica_0")]).
Proof.
  intros d cfg.
  exact (CreateContainer_failure_keeps_handle
           (failingEngine [] (ClientError "No such image: hornet:dev"))
           d "replica_0" cfg None tt tt None {| CreatedID := "ffff" |}
           (ClientError "No such image: hornet:dev") eq_refl eq_refl).
Defined.

(** A container that exited with code 137. *)
Lemma ExitStatus_result_witness :
  let d := {| client := newDockerClient; id := "4f2a" |} in
  let inspected := {| State := Some {| ExitCode := 137 |}; NetworkSettingsOf := None |} in
  run (quietEngine [] {| CreatedID := "" |} inspected) (ExitStatus d) tt
    = (Returned (d, (137, None)), tt, [(newDockerClient, ContainerInspect "4f2a")]).
Proof.
  intros d inspected.
  exact (ExitStatus_result (quietEngine [] {| CreatedID := "" |} inspected)
           d tt tt inspected None eq_refl).
Defined.

(** The networks gone through in the map's order and in the reverse order. *)
Lemma IP_iteration_order_witness :
  let networks : gmap string (option EndpointSettings) :=
    <["A" := Some {| IPAddress := "172.18.0.2" |}]>
      (<["B" := Some {| IPAddress := "172.19.0.2" |}]> ∅) in
  let inspected :=
    {| State := None; NetworkSettingsOf := Some {| Networks := networks |} |} in
  let engine := quietEngine [] {| CreatedID := "" |} inspected in
  let d := {| client := newDockerClient; id := "4f2a" |} in
  run engine (IPIn map_to_list d "B") tt
    = run engine (IPIn (fun m => reverse (map_to_list m)) d "B") tt.
Proof.
  intros networks inspected engine d.
  exact (IP_iteration_order engine map_to_list (fun m => reverse (map_to_list m)) d "B" tt
           (fun m => reflexivity (map_to_list m))
           (fun m => reverse_Permutation (map_to_list m))).
Defined.

(** A network reported with a nil endpoint. *)
Lemma IP_nil_pointer_witness :
  let networks : gmap string (option EndpointSettings) := <["A" := None]> ∅ in
  let inspected :=
    {| State := None; NetworkSettingsOf := Some {| Networks := networks |} |} in
  let d := {| client := newDockerClient; id := "4f2a" |} in
  run (quietEngine [] {| CreatedID := "" |} inspected) (IP d "A") tt
    = (Panicked nilDereference, tt, [(newDockerClient, ContainerInspect "4f2a")]).
Proof.
  intros networks inspected d.
  apply (IP_nil_pointer (quietEngine [] {| CreatedID := "" |} inspected)
           map_to_list d "A" tt tt inspected eq_refl).
  - reflexivity.
  - vm_compute. reflexivity.
Defined.

(** Three operations that return: three requests. *)
Lemma operations_one_request_each_witness :
  let d := {| client := newDockerClient; id := "4f2a" |} in
  let engine :=
    quietEngine [] {| CreatedID := "" |} {| State := None; NetworkSettingsOf := None |} in
  length (run engine (performAll map_to_list [OpStart; OpLogs; OpRemove] d) tt).2 = 3%nat.
Proof.
  intros d engine.
  destruct (run engine (performAll map_to_list [OpStart; OpLogs; OpRemove] d) tt)
    as [[o w'] log] eqn:Hrun.
  pose proof (operations_one_request_each engine map_to_list _ _ _ _ _ _ Hrun) as [_ Hall].
  vm_compute in Hrun. injection Hrun as <- _ _.
  exact (Hall _ eq_refl).
Defined.

(** [peer-1] looked up, then stopped and removed. *)
Lemma operations_after_lookup_witness :
  let containers := [{| ID := "0e11"; Names := ["entry_node"] |};
                     {| ID := "4f2a"; Names := ["peer-1"] |}] in
  let engine :=
    quietEngine containers {| CreatedID := "" |} {| State := None; NetworkSettingsOf := None |} in
  let h := {| client := newDockerClient; id := "4f2a" |} in
  exists cont,
    cont ∈ containers /\
    Names cont !! 0%nat = Some "peer-1" /\
    Forall (fun entry : Client * request =>
              entry.1 = newDockerClient /\ targetOf entry.2 = Some (ID cont))
      (run engine (performAll map_to_list [OpStop None; OpRemove] h) tt).2.
Proof.
  intros containers engine h.
  destruct (run engine (performAll map_to_list [OpStop None; OpRemove] h) tt)
    as [[o w2] log] eqn:Hrun.
  destruct (operations_after_lookup engine map_to_list newDockerClient "peer-1" tt tt tt w2
              containers h None [(newDockerClient, ContainerList ContainerListOptionsZero)]
              log [OpStop None; OpRemove] o eq_refl eq_refl Hrun)
    as (cont & Hin & Hname & Hlog & _).
  exists cont. auto.
Defined.
